(** * Model lifecycle wrapper of background-remove

    Shallow embedding of [src/utils/backgroundRemoval.ts] (module state
    [isModelLoaded], [loadModel], [processImageBackgroundRemoval],
    [isModelReady], [resetModel]) and of the configuration handling of
    [src/App.tsx] and [src/components/ConfigPanel.tsx].

    The asynchronous code is run one operation at a time, as the interface
    serialises it; each [await] is a bind of a state and exception monad.
    The external library ([preload], [removeBackground]) is an environment
    whose answers may depend on everything observed so far (the trace), so
    repeated calls may succeed or fail differently. *)

From Stdlib Require Import String Ascii List Bool QArith NArith.
Import ListNotations.

Module BackgroundRemoval.

(** ** Configuration ([Config] of @imgly/background-removal, the fields used) *)

Inductive Device := cpu | gpu.
Inductive Model := isnet | isnet_fp16 | isnet_quint8.
Inductive Format := image_png | image_jpeg | image_webp.
Inductive OutputType := foreground | background | mask.

Record OutputConfig := mkOutput {
  format : Format;
  quality : Q;
  type : OutputType
}.

Record Config := mkConfig {
  debug : bool;
  device : Device;
  model : Model;
  output : OutputConfig
}.

Definition Device_eqb (a b : Device) : bool :=
  match a, b with cpu, cpu | gpu, gpu => true | _, _ => false end.

Definition Model_eqb (a b : Model) : bool :=
  match a, b with
  | isnet, isnet | isnet_fp16, isnet_fp16 | isnet_quint8, isnet_quint8 => true
  | _, _ => false
  end.

(** The argument object of the [preload] call. *)
Record PreloadConfig := mkPreload {
  pre_model : Model;
  pre_debug : bool;
  pre_device : Device
}.

(** [export const defaultConfig: Config = ...] *)
Definition defaultConfig : Config :=
  {| debug := false;
     device := cpu;
     model := isnet_fp16;
     output := {| format := image_png; quality := 8 # 10; type := foreground |} |}.

(** A TypeScript default parameter: [config: Config = defaultConfig]. *)
Definition with_default (config : option Config) : Config :=
  match config with Some c => c | None => defaultConfig end.

(** ** Values crossing the boundary *)

Record File := mkFile {
  file_name : string;
  file_type : string;
  file_size : N;
  file_data : string
}.

Definition Blob := string.

(** A thrown value: either the value the library threw ([External]), or
    an [Error] object built by this code with [new Error(msg)]. *)
Inductive exn :=
  | External (e : string)
  | Error (msg : string).

(** Observable events: calls to the library and writes to [console.error].
    The library calls carry, as a ghost field, the value of
    [isModelLoaded] at the moment of the call. *)
Inductive Event :=
  | EvPreload (ready : bool) (args : PreloadConfig) (ok : bool)
  | EvRemoveBackground (ready : bool) (f : File) (c : Config)
  | EvConsoleError (label : string) (v : exn).

(** The external library: its answer to each call, given the trace so far.
    [env_preload] returns [None] on success and [Some e] when it throws [e]. *)
Record Env := mkEnv {
  env_preload : list Event -> PreloadConfig -> option string;
  env_removeBackground : list Event -> File -> Config -> string + Blob
}.

(** Module state: [let isModelLoaded = false;] and the observation trace. *)
Record St := mkSt {
  isModelLoaded : bool;
  trace : list Event
}.

Definition init_st : St := {| isModelLoaded := false; trace := [] |}.

(** ** A state and exception monad *)

Inductive res (A : Type) :=
  | Ok (a : A)
  | Throw (e : exn).
Arguments Ok {A} a.
Arguments Throw {A} e.

Definition M (A : Type) := St -> St * res A.

Definition ret {A} (a : A) : M A := fun st => (st, Ok a).

Definition bind {A B} (m : M A) (k : A -> M B) : M B :=
  fun st => match m st with
            | (st', Ok a) => k a st'
            | (st', Throw e) => (st', Throw e)
            end.

Definition throw {A} (e : exn) : M A := fun st => (st, Throw e).

(** [try { m } catch (error) { h(error) }] *)
Definition try_catch {A} (m : M A) (h : exn -> M A) : M A :=
  fun st => match m st with
            | (st', Ok a) => (st', Ok a)
            | (st', Throw e) => h e st'
            end.

Notation "x <- m ;; k" := (bind m (fun x => k))
  (at level 61, m at next level, right associativity).
Notation "m ;;; k" := (bind m (fun _ => k))
  (at level 61, right associativity).

Definition get_loaded : M bool := fun st => (st, Ok (isModelLoaded st)).

Definition set_loaded (b : bool) : M unit :=
  fun st => ({| isModelLoaded := b; trace := trace st |}, Ok tt).

Definition emit (ev : Event) : St -> St :=
  fun st => {| isModelLoaded := isModelLoaded st; trace := trace st ++ [ev] |}.

Definition console_error (label : string) (v : exn) : M unit :=
  fun st => (emit (EvConsoleError label v) st, Ok tt).

Section Library.
Variable env : Env.

(** [await preload(args)] *)
Definition preload (args : PreloadConfig) : M unit :=
  fun st =>
    match env_preload env (trace st) args with
    | None => (emit (EvPreload (isModelLoaded st) args true) st, Ok tt)
    | Some e => (emit (EvPreload (isModelLoaded st) args false) st, Throw (External e))
    end.

(** [await removeBackground(imageFile, config)] *)
Definition removeBackground (f : File) (c : Config) : M Blob :=
  fun st =>
    let st' := emit (EvRemoveBackground (isModelLoaded st) f c) st in
    match env_removeBackground env (trace st) f c with
    | inl e => (st', Throw (External e))
    | inr b => (st', Ok b)
    end.

(** ** The wrapper *)

Definition preload_failed_label : string := "Failed to preload model:".
Definition removal_failed_label : string := "Background removal failed:".
(** [new Error('背景去除失败，请重试')] *)
Definition removal_failed_msg : string := "背景去除失败，请重试".

Definition loadModel (config_arg : option Config) : M unit :=
  let config := with_default config_arg in
  loaded <- get_loaded ;;
  if negb loaded then
    try_catch
      (preload {| pre_model := model config;
                  pre_debug := debug config;
                  pre_device := device config |} ;;;
       set_loaded true)
      (fun error => console_error preload_failed_label error ;;; throw error)
  else ret tt.

Definition processImageBackgroundRemoval (imageFile : File)
    (config_arg : option Config) : M Blob :=
  let config := with_default config_arg in
  try_catch
    (loaded <- get_loaded ;;
     (if negb loaded then loadModel (Some config) else ret tt) ;;;
     blob <- removeBackground imageFile config ;;
     ret blob)
    (fun error =>
       console_error removal_failed_label error ;;;
       throw (Error removal_failed_msg)).

Definition isModelReady : M bool := get_loaded.

Definition resetModel : M unit := set_loaded false.

(** The [preload] argument object built from a configuration. *)
Definition preload_config (c : Config) : PreloadConfig :=
  {| pre_model := model c; pre_debug := debug c; pre_device := device c |}.

(** Operations on the wrapper, as a caller issues them. *)
Inductive WOp :=
  | WLoad (c : option Config)
  | WProcess (f : File) (c : option Config)
  | WReset
  | WIsReady.

Definition wstep (op : WOp) (st : St) : St :=
  match op with
  | WLoad c => fst (loadModel c st)
  | WProcess f c => fst (processImageBackgroundRemoval f c st)
  | WReset => fst (resetModel st)
  | WIsReady => fst (isModelReady st)
  end.

Fixpoint wrun (ops : list WOp) (st : St) : St :=
  match ops with
  | [] => st
  | op :: ops' => wrun ops' (wstep op st)
  end.

End Library.

(** The arguments of the last successful [preload] call in a trace. *)
Fixpoint last_ok_preload (t : list Event) : option PreloadConfig :=
  match t with
  | [] => None
  | ev :: t' =>
      match last_ok_preload t' with
      | Some a => Some a
      | None => match ev with EvPreload _ a true => Some a | _ => None end
      end
  end.

(** Number of [preload] calls in a trace. *)
Fixpoint count_preloads (t : list Event) : nat :=
  match t with
  | [] => 0
  | EvPreload _ _ _ :: t' => S (count_preloads t')
  | _ :: t' => count_preloads t'
  end.

(** The configuration a caller of the wrapper last passed (to [loadModel]
    or [processImageBackgroundRemoval]), defaults resolved. *)
Fixpoint current_config (ops : list WOp) (c : Config) : Config :=
  match ops with
  | [] => c
  | WLoad c' :: ops' => current_config ops' (with_default c')
  | WProcess _ c' :: ops' => current_config ops' (with_default c')
  | _ :: ops' => current_config ops' c
  end.

End BackgroundRemoval.

(** * The interaction layer ([App.tsx], [ConfigPanel.tsx]) *)

Module App.
Import BackgroundRemoval.
Local Open Scope string_scope.

Record AppSt := mkApp {
  app_config : Config;
  modelLoaded : bool;
  app_error : option string;
  processedImage : option (string * Blob);
  lib : St
}.

(** [useState<Config>(defaultConfig)], [useState(false)], ... *)
Definition app_init : AppSt :=
  {| app_config := defaultConfig; modelLoaded := false; app_error := None;
     processedImage := None; lib := init_st |}.

Definition set_lib (s : AppSt) (l : St) : AppSt :=
  {| app_config := app_config s; modelLoaded := modelLoaded s;
     app_error := app_error s; processedImage := processedImage s; lib := l |}.
Definition set_config (s : AppSt) (c : Config) : AppSt :=
  {| app_config := c; modelLoaded := modelLoaded s;
     app_error := app_error s; processedImage := processedImage s; lib := lib s |}.
Definition set_modelLoaded (s : AppSt) (b : bool) : AppSt :=
  {| app_config := app_config s; modelLoaded := b;
     app_error := app_error s; processedImage := processedImage s; lib := lib s |}.
Definition set_error (s : AppSt) (e : option string) : AppSt :=
  {| app_config := app_config s; modelLoaded := modelLoaded s;
     app_error := e; processedImage := processedImage s; lib := lib s |}.
Definition set_processed (s : AppSt) (p : option (string * Blob)) : AppSt :=
  {| app_config := app_config s; modelLoaded := modelLoaded s;
     app_error := app_error s; processedImage := p; lib := lib s |}.

Definition app_console_error (label : string) (v : exn) (s : AppSt) : AppSt :=
  set_lib s (emit (EvConsoleError label v) (lib s)).

Section Handlers.
Variable env : Env.

(** [initModel] of the mount effect. *)
Definition initModel (s : AppSt) : AppSt :=
  match loadModel env (Some (app_config s)) (lib s) with
  | (l, Ok _) => set_modelLoaded (set_lib s l) true
  | (l, Throw err) =>
      let s := app_console_error "模型加载失败:" err (set_lib s l) in
      set_modelLoaded (set_error s (Some "AI模型加载失败，请刷新页面重试")) false
  end.

(** [handleConfigChange], with [config] the state it closes over. *)
Definition handleConfigChange (newConfig : Config) (s : AppSt) : AppSt :=
  let config := app_config s in
  let s := set_config s newConfig in
  if negb (Model_eqb (model newConfig) (model config)) ||
     negb (Device_eqb (device newConfig) (device config)) ||
     negb (Bool.eqb (debug newConfig) (debug config))
  then
    let s := set_modelLoaded s false in
    let s := set_lib s (fst (resetModel (lib s))) in
    match loadModel env (Some newConfig) (lib s) with
    | (l, Ok _) => set_error (set_modelLoaded (set_lib s l) true) None
    | (l, Throw err) =>
        let s := app_console_error "模型重新加载失败:" err (set_lib s l) in
        set_modelLoaded
          (set_error s (Some "AI模型加载失败，请检查配置或刷新页面重试")) false
    end
  else s.

Definition ten_mb : N := 10 * 1024 * 1024.

(** [handleFileSelect]; a blob URL is modelled by the blob itself. *)
Definition handleFileSelect (file : File) (s : AppSt) : AppSt :=
  if negb (String.prefix "image/" (file_type file)) then
    set_error s (Some "请选择有效的图片文件（JPG、PNG、WEBP等）")
  else if (ten_mb <? file_size file)%N then
    set_error s (Some "图片文件大小不能超过10MB")
  else if negb (isModelLoaded (lib s)) then
    set_error s (Some "AI模型尚未加载完成，请稍候再试")
  else
    let s := set_error s None in
    match processImageBackgroundRemoval env file (Some (app_config s)) (lib s) with
    | (l, Ok blob) => set_processed (set_lib s l) (Some (file_name file, blob))
    | (l, Throw err) =>
        let msg := match err with
                   | Error m => m
                   | External _ => "处理图片时出现错误，请重试"
                   end in
        app_console_error "Background removal error:" err
          (set_error (set_lib s l) (Some msg))
    end.

Inductive AppOp :=
  | Mount
  | ConfigChange (c : Config)
  | FileSelect (f : File).

Definition app_step (op : AppOp) (s : AppSt) : AppSt :=
  match op with
  | Mount => initModel s
  | ConfigChange c => handleConfigChange c s
  | FileSelect f => handleFileSelect f s
  end.

Fixpoint app_run (ops : list AppOp) (s : AppSt) : AppSt :=
  match ops with
  | [] => s
  | op :: ops' => app_run ops' (app_step op s)
  end.

End Handlers.

(** [ConfigPanel]: [updateConfig] and [updateOutputConfig] with a
    [Partial] record of updates. *)
Record OutputUpdate := mkOutputUpdate {
  u_format : option Format;
  u_quality : option Q;
  u_type : option OutputType
}.

Definition updateOutputConfig (config : Config) (updates : OutputUpdate) : Config :=
  let o := output config in
  {| debug := debug config; device := device config; model := model config;
     output := {| format := match u_format updates with Some x => x | None => format o end;
                  quality := match u_quality updates with Some x => x | None => quality o end;
                  type := match u_type updates with Some x => x | None => type o end |} |}.

(** [updateConfig] of the settings panel: [{ ...config, ...updates }]. *)
Record ConfigUpdate := mkConfigUpdate {
  u_debug : option bool;
  u_device : option Device;
  u_model : option Model;
  u_output : option OutputConfig
}.

Definition updateConfig (config : Config) (updates : ConfigUpdate) : Config :=
  {| debug := match u_debug updates with Some x => x | None => debug config end;
     device := match u_device updates with Some x => x | None => device config end;
     model := match u_model updates with Some x => x | None => model config end;
     output := match u_output updates with Some x => x | None => output config end |}.

(** The debug switch: [updateConfig({ debug: !config.debug })]. *)
Definition toggle_debug (config : Config) : ConfigUpdate :=
  {| u_debug := Some (negb (debug config)); u_device := None; u_model := None;
     u_output := None |}.

(** ** [downloadImage] *)

(** [config.output.format === 'image/png' ? 'png' :
     config.output.format === 'image/jpeg' ? 'jpg' : 'webp'] *)
Definition extension (f : Format) : string :=
  match f with
  | image_png => "png"
  | image_jpeg => "jpg"
  | _ => "webp"
  end.

(** [config.output.type === 'foreground' ? 'no-bg' :
     config.output.type === 'background' ? 'bg-only' : 'mask'] *)
Definition outputTypeName (t : OutputType) : string :=
  match t with
  | foreground => "no-bg"
  | background => "bg-only"
  | _ => "mask"
  end.

(** Every character is matched by [[^/.]]. *)
Fixpoint no_dot_slash (s : string) : bool :=
  match s with
  | EmptyString => true
  | String c r =>
      negb (Ascii.eqb c "."%char) && negb (Ascii.eqb c "/"%char) && no_dot_slash r
  end.

(** [[^/.]+$]: a non-empty rest of the string made of such characters. *)
Definition ext_tail (s : string) : bool :=
  match s with
  | EmptyString => false
  | _ => no_dot_slash s
  end.

(** [filename.replace(/\.[^/.]+$/, '')]: the leftmost position where
    [\.[^/.]+$] matches is cut off with everything after it; with no match
    the string is unchanged. *)
Fixpoint strip_extension (s : string) : string :=
  match s with
  | EmptyString => EmptyString
  | String c rest =>
      if Ascii.eqb c "."%char && ext_tail rest then EmptyString
      else String c (strip_extension rest)
  end.

(** [downloadImage]: the [link.download] name it sets, [None] when it
    returns early because there is no processed image. *)
Definition downloadImage (processed : option (string * Blob)) (config : Config)
    : option string :=
  match processed with
  | None => None
  | Some (filename, _) =>
      Some (outputTypeName (type (output config)) ++ "-" ++
            strip_extension filename ++ "." ++ extension (format (output config)))
  end.

(** The loading indicator ([modelLoaded]) shows the wrapper's flag. *)
Definition ui_consistent (s : AppSt) : Prop :=
  modelLoaded s = isModelLoaded (lib s).

(** The readiness flag agrees with the configuration: when it is true,
    the last successful [preload] was made with the [model], [debug] and
    [device] of the current configuration. *)
Definition consistent (s : AppSt) : Prop :=
  isModelLoaded (lib s) = true ->
  last_ok_preload (trace (lib s)) = Some (preload_config (app_config s)).

End App.

(** * Sample inputs *)

Module Samples.
Import BackgroundRemoval.
Local Open Scope string_scope.

(** A library whose calls all succeed. *)
Definition ok_env : Env :=
  {| env_preload := fun _ _ => None;
     env_removeBackground := fun _ f _ => inr (file_data f) |}.

(** A library whose [preload] throws [e]. *)
Definition preload_fails_env (e : string) : Env :=
  {| env_preload := fun _ _ => Some e;
     env_removeBackground := fun _ f _ => inr (file_data f) |}.

(** A library whose [removeBackground] throws [e]. *)
Definition inference_fails_env (e : string) : Env :=
  {| env_preload := fun _ _ => None;
     env_removeBackground := fun _ _ _ => inl e |}.

Definition sample_file : File :=
  {| file_name := "cat.png"; file_type := "image/png"; file_size := 2048%N;
     file_data := "png-bytes" |}.

Definition gpu_config : Config :=
  {| debug := false; device := gpu; model := isnet_fp16;
     output := output defaultConfig |}.

Definition ready_st : St := {| isModelLoaded := true; trace := [] |}.

End Samples.

(** * Proofs *)

Module Facts.
Import BackgroundRemoval App.

Ltac run_wrapper :=
  unfold processImageBackgroundRemoval, loadModel, isModelReady, resetModel,
    bind, get_loaded, set_loaded, try_catch, preload, removeBackground,
    emit, console_error, throw, ret, with_default, preload_config in *;
  simpl in *.

Ltac finish_run := unfold emit; simpl; rewrite <- ?app_assoc; reflexivity.

(** ** How each wrapper call runs *)

Lemma loadModel_when_ready env c st :
  isModelLoaded st = true -> loadModel env c st = (st, Ok tt).
Proof. destruct st as [l t]; simpl; intros ->; reflexivity. Qed.

Lemma loadModel_preload_ok env c st :
  isModelLoaded st = false ->
  env_preload env (trace st) (preload_config (with_default c)) = None ->
  loadModel env c st =
    (mkSt true (trace st ++ [EvPreload false (preload_config (with_default c)) true]),
     Ok tt).
Proof.
  destruct st as [l t]; simpl; intros -> H.
  destruct c; run_wrapper; rewrite H; reflexivity.
Qed.

Lemma loadModel_preload_fail env c st e :
  isModelLoaded st = false ->
  env_preload env (trace st) (preload_config (with_default c)) = Some e ->
  loadModel env c st =
    (mkSt false (trace st ++ [EvPreload false (preload_config (with_default c)) false;
                              EvConsoleError preload_failed_label (External e)]),
     Throw (External e)).
Proof.
  destruct st as [l t]; simpl; intros -> H.
  destruct c; run_wrapper; rewrite H; finish_run.
Qed.

Lemma process_when_ready_ok env f c st b :
  isModelLoaded st = true ->
  env_removeBackground env (trace st) f (with_default c) = inr b ->
  processImageBackgroundRemoval env f c st =
    (mkSt true (trace st ++ [EvRemoveBackground true f (with_default c)]), Ok b).
Proof.
  destruct st as [l t]; simpl; intros -> H.
  destruct c; run_wrapper; rewrite H; reflexivity.
Qed.

Lemma process_when_ready_fail env f c st e :
  isModelLoaded st = true ->
  env_removeBackground env (trace st) f (with_default c) = inl e ->
  processImageBackgroundRemoval env f c st =
    (mkSt true (trace st ++ [EvRemoveBackground true f (with_default c);
                             EvConsoleError removal_failed_label (External e)]),
     Throw (Error removal_failed_msg)).
Proof.
  destruct st as [l t]; simpl; intros -> H.
  destruct c; run_wrapper; rewrite H; finish_run.
Qed.

Lemma process_lazy_load_ok env f c st :
  isModelLoaded st = false ->
  env_preload env (trace st) (preload_config (with_default c)) = None ->
  processImageBackgroundRemoval env f c st =
    processImageBackgroundRemoval env f (Some (with_default c))
      (mkSt true (trace st ++ [EvPreload false (preload_config (with_default c)) true])).
Proof.
  destruct st as [l t]; simpl; intros -> H.
  destruct c; run_wrapper; rewrite H; reflexivity.
Qed.

Lemma process_lazy_load_fail env f c st e :
  isModelLoaded st = false ->
  env_preload env (trace st) (preload_config (with_default c)) = Some e ->
  processImageBackgroundRemoval env f c st =
    (mkSt false (trace st ++ [EvPreload false (preload_config (with_default c)) false;
                              EvConsoleError preload_failed_label (External e);
                              EvConsoleError removal_failed_label (External e)]),
     Throw (Error removal_failed_msg)).
Proof.
  destruct st as [l t]; simpl; intros -> H.
  destruct c; run_wrapper; rewrite H; finish_run.
Qed.

(** ** Traces *)

Lemma last_ok_preload_app t u :
  last_ok_preload (t ++ u) =
  match last_ok_preload u with Some a => Some a | None => last_ok_preload t end.
Proof.
  induction t as [|ev t IH]; simpl.
  - destruct (last_ok_preload u); reflexivity.
  - rewrite IH. destruct (last_ok_preload u); reflexivity.
Qed.

Lemma Model_eqb_eq a b : Model_eqb a b = true <-> a = b.
Proof. destruct a, b; simpl; split; congruence. Qed.

Lemma Device_eqb_eq a b : Device_eqb a b = true <-> a = b.
Proof. destruct a, b; simpl; split; congruence. Qed.

(** ** What a wrapper call leaves behind *)

Lemma loadModel_outcome env c st :
  let (st', r) := loadModel env c st in
  (isModelLoaded st = true /\ st' = st) \/
  (isModelLoaded st' = true /\
   last_ok_preload (trace st') = Some (preload_config (with_default c))) \/
  isModelLoaded st' = false.
Proof.
  destruct (isModelLoaded st) eqn:Hl.
  - rewrite (loadModel_when_ready env c st Hl). left; auto.
  - destruct (env_preload env (trace st) (preload_config (with_default c))) as [e|] eqn:Hp.
    + rewrite (loadModel_preload_fail env c st e Hl Hp). right; right; reflexivity.
    + rewrite (loadModel_preload_ok env c st Hl Hp). right; left. split; [reflexivity |].
      simpl. rewrite last_ok_preload_app. reflexivity.
Qed.

Lemma process_when_ready_frame env f c st :
  isModelLoaded st = true ->
  let (st', r) := processImageBackgroundRemoval env f c st in
  isModelLoaded st' = true /\ last_ok_preload (trace st') = last_ok_preload (trace st).
Proof.
  intros Hl.
  destruct (env_removeBackground env (trace st) f (with_default c)) as [e|b] eqn:Hr.
  - rewrite (process_when_ready_fail env f c st e Hl Hr). simpl.
    rewrite last_ok_preload_app. auto.
  - rewrite (process_when_ready_ok env f c st b Hl Hr). simpl.
    rewrite last_ok_preload_app. auto.
Qed.

(** ** The handlers keep [consistent] *)

Ltac unfold_app :=
  unfold consistent, app_console_error, set_lib, set_config, set_modelLoaded,
    set_error, set_processed, emit in *; simpl in *;
  try (intros ?; rewrite ?last_ok_preload_app; simpl).

Lemma initModel_consistent env s : consistent s -> consistent (initModel env s).
Proof.
  intros Hs. unfold initModel.
  pose proof (loadModel_outcome env (Some (app_config s)) (lib s)) as O.
  destruct (loadModel env (Some (app_config s)) (lib s)) as [l [u|e]].
  - destruct O as [[Hl ->] | [[Hl Hlast] | Hl]]; unfold_app; auto; congruence.
  - destruct O as [[Hl ->] | [[Hl Hlast] | Hl]]; unfold_app; auto; congruence.
Qed.

Lemma handleConfigChange_consistent env c s :
  consistent s -> consistent (handleConfigChange env c s).
Proof.
  intros Hs. unfold handleConfigChange.
  destruct (negb (Model_eqb (model c) (model (app_config s))) ||
            negb (Device_eqb (device c) (device (app_config s))) ||
            negb (Bool.eqb (debug c) (debug (app_config s)))) eqn:Hc.
  - set (l0 := lib (set_lib (set_modelLoaded (set_config s c) false)
                  (fst (resetModel (lib (set_modelLoaded (set_config s c) false)))))).
    assert (H0 : isModelLoaded l0 = false) by reflexivity.
    pose proof (loadModel_outcome env (Some c) l0) as O.
    destruct (loadModel env (Some c) l0) as [l [u|e]].
    + destruct O as [[Hl _] | [[Hl Hlast] | Hl]]; unfold_app; auto; congruence.
    + destruct O as [[Hl _] | [[Hl Hlast] | Hl]]; unfold_app; auto; congruence.
  - apply orb_false_iff in Hc as [Hc Hdebug]. apply orb_false_iff in Hc as [Hmodel Hdevice].
    apply negb_false_iff in Hmodel, Hdevice, Hdebug.
    apply Model_eqb_eq in Hmodel. apply Device_eqb_eq in Hdevice.
    apply Bool.eqb_prop in Hdebug.
    unfold_app. rewrite Hs by assumption. unfold preload_config.
    rewrite Hmodel, Hdevice, Hdebug. reflexivity.
Qed.

Lemma handleFileSelect_consistent env f s :
  consistent s -> consistent (handleFileSelect env f s).
Proof.
  intros Hs. unfold handleFileSelect.
  destruct (negb (String.prefix "image/" (file_type f))); [exact Hs |].
  destruct (ten_mb <? file_size f)%N; [exact Hs |].
  destruct (isModelLoaded (lib s)) eqn:Hl; [| exact Hs].
  simpl.
  pose proof (process_when_ready_frame env f (Some (app_config s)) (lib s) Hl) as O.
  destruct (processImageBackgroundRemoval env f (Some (app_config s)) (lib s))
    as [l [b|e]]; destruct O as [Hl' Hlast].
  - unfold_app. rewrite Hlast. exact (Hs Hl).
  - unfold_app. rewrite Hlast. exact (Hs Hl).
Qed.

Lemma app_run_consistent env ops s : consistent s -> consistent (app_run env ops s).
Proof.
  revert s. induction ops as [|op ops IH]; intros s Hs; simpl; [exact Hs |].
  apply IH. destruct op.
  - apply initModel_consistent; exact Hs.
  - apply handleConfigChange_consistent; exact Hs.
  - apply handleFileSelect_consistent; exact Hs.
Qed.

End Facts.

Module Claims.
Import BackgroundRemoval App Samples Facts.
Local Open Scope string_scope.
Local Open Scope nat_scope.
Local Open Scope list_scope.

(** C2: if the [preload] call made by [loadModel] throws [e], then
    [loadModel] rethrows exactly [e], the readiness flag stays false, and
    the only other effect is writing [e] to [console.error]. *)
Theorem loadModel_failure_rethrows env c st e :
  isModelLoaded st = false ->
  env_preload env (trace st) (preload_config (with_default c)) = Some e ->
  let (st', r) := loadModel env c st in
  r = Throw (External e) /\ isModelLoaded st' = false /\
  trace st' = trace st ++ [EvPreload false (preload_config (with_default c)) false;
                           EvConsoleError preload_failed_label (External e)].
Proof.
  intros Hnot Hfail. rewrite (loadModel_preload_fail env c st e Hnot Hfail).
  repeat split.
Qed.

Lemma loadModel_failure_rethrows_witness :
  (isModelLoaded init_st = false /\
   env_preload (preload_fails_env "network error") (trace init_st)
     (preload_config (with_default None)) = Some "network error") /\
  (let (st', r) := loadModel (preload_fails_env "network error") None init_st in
   r = Throw (External "network error") /\ isModelLoaded st' = false /\
   trace st' = trace init_st ++
     [EvPreload false (preload_config (with_default None)) false;
      EvConsoleError preload_failed_label (External "network error")]).
Proof.
  split; [split; reflexivity |].
  apply (loadModel_failure_rethrows (preload_fails_env "network error") None
           init_st "network error"); reflexivity.
Defined.

(** C3: if the [removeBackground] call made by
    [processImageBackgroundRemoval] throws [e] (with the model already
    loaded, or after a successful lazy load), the call throws
    [new Error(removal_failed_msg)], the same value for every [e]; [e] is
    written to [console.error] and appears nowhere else. *)
Theorem inference_failure_generic_error env f c st e :
  (isModelLoaded st = true ->
   env_removeBackground env (trace st) f (with_default c) = inl e ->
   processImageBackgroundRemoval env f c st =
     (mkSt true (trace st ++ [EvRemoveBackground true f (with_default c);
                              EvConsoleError removal_failed_label (External e)]),
      Throw (Error removal_failed_msg))) /\
  (isModelLoaded st = false ->
   env_preload env (trace st) (preload_config (with_default c)) = None ->
   env_removeBackground env
     (trace st ++ [EvPreload false (preload_config (with_default c)) true])
     f (with_default c) = inl e ->
   processImageBackgroundRemoval env f c st =
     (mkSt true (trace st ++ [EvPreload false (preload_config (with_default c)) true;
                              EvRemoveBackground true f (with_default c);
                              EvConsoleError removal_failed_label (External e)]),
      Throw (Error removal_failed_msg))).
Proof.
  split.
  - intros Hready Hfail. exact (process_when_ready_fail env f c st e Hready Hfail).
  - intros Hnot Hpre Hfail.
    rewrite (process_lazy_load_ok env f c st Hnot Hpre).
    rewrite (process_when_ready_fail env f (Some (with_default c))
      (mkSt true (trace st ++ [EvPreload false (preload_config (with_default c)) true]))
      e eq_refl Hfail).
    simpl. rewrite <- app_assoc. reflexivity.
Qed.

Lemma inference_failure_generic_error_witness :
  (isModelLoaded ready_st = true ->
   env_removeBackground (inference_fails_env "out of memory") (trace ready_st)
     sample_file (with_default None) = inl "out of memory" ->
   processImageBackgroundRemoval (inference_fails_env "out of memory")
     sample_file None ready_st =
     (mkSt true (trace ready_st ++
        [EvRemoveBackground true sample_file (with_default None);
         EvConsoleError removal_failed_label (External "out of memory")]),
      Throw (Error removal_failed_msg))) /\
  (isModelLoaded ready_st = true /\
   env_removeBackground (inference_fails_env "out of memory") (trace ready_st)
     sample_file (with_default None) = inl "out of memory").
Proof.
  split; [| split; reflexivity].
  apply (inference_failure_generic_error (inference_fails_env "out of memory")
           sample_file None ready_st "out of memory").
Defined.

(** C4: [loadModel] while the flag is true returns at once and calls
    nothing; two successive [loadModel] calls, the first successful, make
    exactly one [preload] call when the flag was false before them (none
    when it was already true), and the second one changes nothing. *)
Theorem loadModel_idempotent env c1 c2 st st1 :
  (isModelLoaded st = true -> loadModel env c1 st = (st, Ok tt)) /\
  (loadModel env c1 st = (st1, Ok tt) ->
   loadModel env c2 st1 = (st1, Ok tt) /\
   exists new, trace st1 = trace st ++ new /\
     count_preloads new = if isModelLoaded st then 0 else 1).
Proof.
  split; [apply loadModel_when_ready |].
  intros H1. destruct (isModelLoaded st) eqn:Hl.
  - rewrite (loadModel_when_ready env c1 st Hl) in H1. injection H1 as <-.
    split; [apply loadModel_when_ready; exact Hl |].
    exists []. rewrite app_nil_r. split; reflexivity.
  - destruct (env_preload env (trace st) (preload_config (with_default c1))) as [e|] eqn:Hp.
    + rewrite (loadModel_preload_fail env c1 st e Hl Hp) in H1. discriminate H1.
    + rewrite (loadModel_preload_ok env c1 st Hl Hp) in H1. injection H1 as <-.
      split; [reflexivity |].
      eexists. split; reflexivity.
Qed.

Lemma loadModel_idempotent_witness :
  loadModel ok_env None init_st =
    (mkSt true [EvPreload false (preload_config defaultConfig) true], Ok tt) /\
  loadModel ok_env (Some gpu_config)
    (mkSt true [EvPreload false (preload_config defaultConfig) true]) =
    (mkSt true [EvPreload false (preload_config defaultConfig) true], Ok tt) /\
  exists new, [EvPreload false (preload_config defaultConfig) true] = trace init_st ++ new /\
    count_preloads new = 1.
Proof.
  assert (H1 : loadModel ok_env None init_st =
    (mkSt true [EvPreload false (preload_config defaultConfig) true], Ok tt))
    by reflexivity.
  split; [exact H1 |].
  exact (proj2 (loadModel_idempotent ok_env None (Some gpu_config) init_st _) H1).
Defined.

(** C5: [processImageBackgroundRemoval] called with the flag false makes
    exactly one [preload] call (through [loadModel]) and it is its first
    effect; called with the flag true it makes none; and every
    [removeBackground] call it makes happens while the flag is true. *)
Theorem process_loads_before_inference env f c st :
  let (st', _) := processImageBackgroundRemoval env f c st in
  exists new, trace st' = trace st ++ new /\
    count_preloads new = (if isModelLoaded st then 0 else 1) /\
    (isModelLoaded st = false -> exists p ok rest, new = EvPreload false p ok :: rest) /\
    (forall r f' c', In (EvRemoveBackground r f' c') new -> r = true).
Proof.
  destruct (isModelLoaded st) eqn:Hl.
  - destruct (env_removeBackground env (trace st) f (with_default c)) as [e|b] eqn:Hr.
    + rewrite (process_when_ready_fail env f c st e Hl Hr).
      eexists; split; [reflexivity |]; split; [reflexivity |]; split; [discriminate |].
      simpl. intros r f' c' [H|[H|[]]]; congruence.
    + rewrite (process_when_ready_ok env f c st b Hl Hr).
      eexists; split; [reflexivity |]; split; [reflexivity |]; split; [discriminate |].
      simpl. intros r f' c' [H|[]]; congruence.
  - destruct (env_preload env (trace st) (preload_config (with_default c))) as [e|] eqn:Hp.
    + rewrite (process_lazy_load_fail env f c st e Hl Hp).
      eexists; split; [reflexivity |]; split; [reflexivity |]; split; [intros _; do 3 eexists; reflexivity |].
      simpl. intros r f' c' [H|[H|[H|[]]]]; congruence.
    + rewrite (process_lazy_load_ok env f c st Hl Hp).
      set (st1 := mkSt true _).
      destruct (env_removeBackground env (trace st1) f (with_default (Some (with_default c))))
        as [e|b] eqn:Hr.
      * rewrite (process_when_ready_fail env f _ st1 e eq_refl Hr).
        simpl. rewrite <- app_assoc.
        eexists; split; [reflexivity |]; split; [reflexivity |]; split; [intros _; do 3 eexists; reflexivity |].
        simpl. intros r f' c' [H|[H|[H|[]]]]; congruence.
      * rewrite (process_when_ready_ok env f _ st1 b eq_refl Hr).
        simpl. rewrite <- app_assoc.
        eexists; split; [reflexivity |]; split; [reflexivity |]; split; [intros _; do 3 eexists; reflexivity |].
        simpl. intros r f' c' [H|[H|[]]]; congruence.
Qed.

(** C6: if [processImageBackgroundRemoval] is called with the flag false
    and its lazy [loadModel] fails because [preload] throws [e], the caller
    gets [new Error(removal_failed_msg)], not [e]; [e] is only written to
    [console.error] (once by [loadModel], once by the outer catch). *)
Theorem lazy_load_failure_generic_error env f c st e :
  isModelLoaded st = false ->
  env_preload env (trace st) (preload_config (with_default c)) = Some e ->
  processImageBackgroundRemoval env f c st =
    (mkSt false (trace st ++ [EvPreload false (preload_config (with_default c)) false;
                              EvConsoleError preload_failed_label (External e);
                              EvConsoleError removal_failed_label (External e)]),
     Throw (Error removal_failed_msg)).
Proof. apply process_lazy_load_fail. Qed.

Lemma lazy_load_failure_generic_error_witness :
  (isModelLoaded init_st = false /\
   env_preload (preload_fails_env "bad model") (trace init_st)
     (preload_config (with_default (Some gpu_config))) = Some "bad model") /\
  processImageBackgroundRemoval (preload_fails_env "bad model") sample_file
    (Some gpu_config) init_st =
    (mkSt false (trace init_st ++
       [EvPreload false (preload_config (with_default (Some gpu_config))) false;
        EvConsoleError preload_failed_label (External "bad model");
        EvConsoleError removal_failed_label (External "bad model")]),
     Throw (Error removal_failed_msg)).
Proof.
  split; [split; reflexivity |].
  apply (lazy_load_failure_generic_error (preload_fails_env "bad model") sample_file
           (Some gpu_config) init_st "bad model"); reflexivity.
Defined.

(** C7: after [loadModel] completes successfully, [isModelReady] returns
    true. *)
Theorem ready_after_successful_load env c st st' :
  loadModel env c st = (st', Ok tt) -> isModelReady st' = (st', Ok true).
Proof.
  intros H. destruct (isModelLoaded st) eqn:Hl.
  - rewrite (loadModel_when_ready env c st Hl) in H. injection H as <-.
    unfold isModelReady, get_loaded. rewrite Hl. reflexivity.
  - destruct (env_preload env (trace st) (preload_config (with_default c))) as [e|] eqn:Hp.
    + rewrite (loadModel_preload_fail env c st e Hl Hp) in H. discriminate H.
    + rewrite (loadModel_preload_ok env c st Hl Hp) in H. injection H as <-.
      reflexivity.
Qed.

Lemma ready_after_successful_load_witness :
  loadModel ok_env (Some gpu_config) init_st =
    (mkSt true [EvPreload false (preload_config gpu_config) true], Ok tt) /\
  isModelReady (mkSt true [EvPreload false (preload_config gpu_config) true]) =
    (mkSt true [EvPreload false (preload_config gpu_config) true], Ok true).
Proof.
  assert (H : loadModel ok_env (Some gpu_config) init_st =
    (mkSt true [EvPreload false (preload_config gpu_config) true], Ok tt))
    by reflexivity.
  split; [exact H | exact (ready_after_successful_load ok_env _ _ _ H)].
Defined.

(** C8: whatever the flag was, [isModelReady] right after [resetModel]
    returns false. *)
Theorem not_ready_after_reset st :
  let st1 := fst (resetModel st) in isModelReady st1 = (st1, Ok false).
Proof. reflexivity. Qed.

(** C10: [loadModel] and [processImageBackgroundRemoval] called without a
    configuration behave as when called with [defaultConfig], which is
    [{debug: false, device: 'cpu', model: 'isnet_fp16',
      output: {format: 'image/png', quality: 0.8, type: 'foreground'}}]. *)
Theorem default_config_argument env f st :
  loadModel env None st = loadModel env (Some defaultConfig) st /\
  processImageBackgroundRemoval env f None st =
    processImageBackgroundRemoval env f (Some defaultConfig) st /\
  defaultConfig =
    {| debug := false; device := cpu; model := isnet_fp16;
       output := {| format := image_png; quality := 8 # 10; type := foreground |} |}.
Proof. repeat split. Qed.

Lemma process_loads_before_inference_witness :
  let (st', _) := processImageBackgroundRemoval ok_env sample_file None init_st in
  exists new, trace st' = trace init_st ++ new /\
    count_preloads new = (if isModelLoaded init_st then 0 else 1) /\
    (isModelLoaded init_st = false -> exists p ok rest, new = EvPreload false p ok :: rest) /\
    (forall r f' c', In (EvRemoveBackground r f' c') new -> r = true).
Proof. exact (process_loads_before_inference ok_env sample_file None init_st). Defined.

(** C1, as stated: over any sequence of wrapper calls, a true flag means
    the last successful [preload] used the configuration of the latest call.
    False: [loadModel()] then [loadModel(gpu_config)] leaves the flag true
    while only the default ([cpu]) configuration was preloaded. *)
Lemma wrapper_flag_ignores_config :
  ~ (forall env ops,
       isModelLoaded (wrun env ops init_st) = true ->
       last_ok_preload (trace (wrun env ops init_st)) =
         Some (preload_config (current_config ops defaultConfig))).
Proof.
  intros H.
  specialize (H ok_env [WLoad None; WLoad (Some gpu_config)] eq_refl).
  vm_compute in H. discriminate H.
Qed.

(** C1, amended: the interaction layer, run one handler at a time from its
    initial state, keeps the flag consistent with its configuration (when
    the flag is true, the last successful [preload] used the current
    [model], [debug] and [device]); and a configuration change touching
    [model], [device] or [debug] resets the flag before its [preload],
    which is therefore made (with the flag false) with the new
    configuration's fields. *)
Theorem app_flag_consistent_with_config :
  (forall env ops, consistent (app_run env ops app_init)) /\
  (forall env s c,
     model c <> model (app_config s) \/ device c <> device (app_config s) \/
     debug c <> debug (app_config s) ->
     exists ok rest,
       trace (lib (handleConfigChange env c s)) =
         trace (lib s) ++ EvPreload false (preload_config c) ok :: rest).
Proof.
  split.
  - intros env ops. apply app_run_consistent. unfold consistent. discriminate.
  - intros env s c Hdiff.
    assert (Hc : negb (Model_eqb (model c) (model (app_config s))) ||
                 negb (Device_eqb (device c) (device (app_config s))) ||
                 negb (Bool.eqb (debug c) (debug (app_config s))) = true).
    { destruct Hdiff as [H | [H | H]].
      - destruct (Model_eqb (model c) (model (app_config s))) eqn:E;
          [apply Model_eqb_eq in E; contradiction | reflexivity].
      - destruct (Device_eqb (device c) (device (app_config s))) eqn:E;
          [apply Device_eqb_eq in E; contradiction | simpl; rewrite ?orb_true_r; reflexivity].
      - destruct (Bool.eqb (debug c) (debug (app_config s))) eqn:E;
          [apply Bool.eqb_prop in E; contradiction | simpl; rewrite ?orb_true_r; reflexivity]. }
    unfold handleConfigChange. rewrite Hc.
    set (l0 := lib (set_lib (set_modelLoaded (set_config s c) false)
                  (fst (resetModel (lib (set_modelLoaded (set_config s c) false)))))).
    assert (H0 : isModelLoaded l0 = false) by reflexivity.
    destruct (env_preload env (trace l0) (preload_config (with_default (Some c))))
      as [e|] eqn:Hp.
    + rewrite (loadModel_preload_fail env (Some c) l0 e H0 Hp).
      exists false. eexists. unfold_app. rewrite <- app_assoc. reflexivity.
    + rewrite (loadModel_preload_ok env (Some c) l0 H0 Hp).
      exists true. eexists. unfold_app. reflexivity.
Qed.

Lemma app_flag_consistent_with_config_witness :
  (device gpu_config <> device (app_config app_init)) /\
  exists ok rest,
    trace (lib (handleConfigChange ok_env gpu_config app_init)) =
      trace (lib app_init) ++ EvPreload false (preload_config gpu_config) ok :: rest.
Proof.
  assert (Hd : device gpu_config <> device (app_config app_init)) by discriminate.
  split; [exact Hd |].
  exact (proj2 app_flag_consistent_with_config ok_env app_init gpu_config
           (or_intror (or_introl Hd))).
Defined.

(** C9: a configuration change that leaves [model], [device] and [debug]
    as they are (in particular every [updateOutputConfig] of the settings
    panel) only stores the new configuration: no [resetModel], no
    [loadModel], the readiness flag and the trace unchanged. *)
Theorem output_only_change_keeps_model env s :
  (forall newConfig,
     model newConfig = model (app_config s) ->
     device newConfig = device (app_config s) ->
     debug newConfig = debug (app_config s) ->
     handleConfigChange env newConfig s = set_config s newConfig) /\
  (forall u,
     handleConfigChange env (updateOutputConfig (app_config s) u) s =
       set_config s (updateOutputConfig (app_config s) u)).
Proof.
  assert (Hgen : forall newConfig,
     model newConfig = model (app_config s) ->
     device newConfig = device (app_config s) ->
     debug newConfig = debug (app_config s) ->
     handleConfigChange env newConfig s = set_config s newConfig).
  { intros newConfig Hm Hdv Hdb. unfold handleConfigChange.
    rewrite Hm, Hdv, Hdb.
    assert (Em : Model_eqb (model (app_config s)) (model (app_config s)) = true)
      by (apply Model_eqb_eq; reflexivity).
    assert (Ed : Device_eqb (device (app_config s)) (device (app_config s)) = true)
      by (apply Device_eqb_eq; reflexivity).
    rewrite Em, Ed, Bool.eqb_reflx. reflexivity. }
  split; [exact Hgen |].
  intros u. apply Hgen; reflexivity.
Qed.

Lemma output_only_change_keeps_model_witness :
  let newConfig := updateOutputConfig defaultConfig
                     {| u_format := Some image_webp; u_quality := Some (5 # 10);
                        u_type := Some mask |} in
  (model newConfig = model (app_config app_init) /\
   device newConfig = device (app_config app_init) /\
   debug newConfig = debug (app_config app_init)) /\
  handleConfigChange ok_env newConfig app_init = set_config app_init newConfig.
Proof.
  intros newConfig.
  split; [repeat split |].
  apply (proj1 (output_only_change_keeps_model ok_env app_init) newConfig);
    reflexivity.
Defined.

End Claims.

(** * Further properties of the interaction layer and the wrapper *)

Module Extras.
Import BackgroundRemoval App Samples Facts.
Local Open Scope string_scope.
Local Open Scope nat_scope.
Local Open Scope list_scope.

Lemma loadModel_result_flag env c st :
  let (st', r) := loadModel env c st in
  match r with
  | Ok _ => isModelLoaded st' = true
  | Throw _ => isModelLoaded st' = false
  end.
Proof.
  destruct (isModelLoaded st) eqn:Hl.
  - rewrite (loadModel_when_ready env c st Hl). exact Hl.
  - destruct (env_preload env (trace st) (preload_config (with_default c))) as [e|] eqn:Hp.
    + rewrite (loadModel_preload_fail env c st e Hl Hp). reflexivity.
    + rewrite (loadModel_preload_ok env c st Hl Hp). reflexivity.
Qed.



(** X2: once a valid file passes the guards with the wrapper ready,
    [handleFileSelect] makes exactly one [removeBackground] call with the
    current configuration and no [preload] call. On success it shows the
    library's blob under the file's name and clears the error. On failure
    the error shown is always the wrapper's generic message (never the
    fallback text) and the previous result is kept. *)
Theorem fileSelect_processing env f s :
  String.prefix "image/" (file_type f) = true -> (file_size f <= ten_mb)%N ->
  isModelLoaded (lib s) = true ->
  (forall b, env_removeBackground env (trace (lib s)) f (app_config s) = inr b ->
     processedImage (handleFileSelect env f s) = Some (file_name f, b) /\
     app_error (handleFileSelect env f s) = None /\
     trace (lib (handleFileSelect env f s)) =
       trace (lib s) ++ [EvRemoveBackground true f (app_config s)]) /\
  (forall e, env_removeBackground env (trace (lib s)) f (app_config s) = inl e ->
     app_error (handleFileSelect env f s) = Some removal_failed_msg /\
     processedImage (handleFileSelect env f s) = processedImage s /\
     trace (lib (handleFileSelect env f s)) =
       trace (lib s) ++ [EvRemoveBackground true f (app_config s);
                         EvConsoleError removal_failed_label (External e);
                         EvConsoleError "Background removal error:"
                           (Error removal_failed_msg)]).
Proof.
  intros Hty Hsz Hl. apply N.ltb_ge in Hsz.
  unfold handleFileSelect. rewrite Hty, Hsz, Hl. simpl.
  split.
  - intros b Hr.
    rewrite (process_when_ready_ok env f (Some (app_config s)) (lib s) b Hl Hr).
    repeat split.
  - intros e Hr.
    rewrite (process_when_ready_fail env f (Some (app_config s)) (lib s) e Hl Hr).
    repeat split. simpl. rewrite <- app_assoc. reflexivity.
Qed.

Lemma fileSelect_processing_witness :
  let s := set_lib app_init ready_st in
  (String.prefix "image/" (file_type sample_file) = true /\
   (file_size sample_file <= ten_mb)%N /\ isModelLoaded (lib s) = true) /\
  app_error (handleFileSelect (inference_fails_env "oom") sample_file s) =
    Some removal_failed_msg.
Proof.
  intros s.
  assert (H1 : String.prefix "image/" (file_type sample_file) = true) by reflexivity.
  assert (H2 : (file_size sample_file <= ten_mb)%N) by (apply N.ltb_ge; reflexivity).
  assert (H3 : isModelLoaded (lib s) = true) by reflexivity.
  split; [repeat split; assumption |].
  exact (proj1 (proj2 (fileSelect_processing (inference_fails_env "oom") sample_file s
                          H1 H2 H3) "oom" eq_refl)).
Defined.

Lemma initModel_ui env s : ui_consistent (initModel env s).
Proof.
  unfold initModel.
  pose proof (loadModel_result_flag env (Some (app_config s)) (lib s)) as O.
  destruct (loadModel env (Some (app_config s)) (lib s)) as [l [u|e]];
    unfold ui_consistent, app_console_error, set_lib, set_modelLoaded, set_error, emit;
    simpl; congruence.
Qed.

Lemma handleConfigChange_ui env c s : ui_consistent s -> ui_consistent (handleConfigChange env c s).
Proof.
  intros Hs. unfold handleConfigChange.
  destruct (negb (Model_eqb (model c) (model (app_config s))) ||
            negb (Device_eqb (device c) (device (app_config s))) ||
            negb (Bool.eqb (debug c) (debug (app_config s)))).
  - set (l0 := lib (set_lib (set_modelLoaded (set_config s c) false)
                  (fst (resetModel (lib (set_modelLoaded (set_config s c) false)))))).
    pose proof (loadModel_result_flag env (Some c) l0) as O.
    destruct (loadModel env (Some c) l0) as [l [u|e]];
      unfold ui_consistent, app_console_error, set_lib, set_modelLoaded, set_error, emit;
      simpl; congruence.
  - exact Hs.
Qed.

Lemma handleFileSelect_ui env f s : ui_consistent s -> ui_consistent (handleFileSelect env f s).
Proof.
  intros Hs. unfold handleFileSelect.
  destruct (negb (String.prefix "image/" (file_type f))); [exact Hs |].
  destruct (ten_mb <? file_size f)%N; [exact Hs |].
  destruct (isModelLoaded (lib s)) eqn:Hl; [| exact Hs].
  simpl.
  pose proof (process_when_ready_frame env f (Some (app_config s)) (lib s) Hl) as O.
  destruct (processImageBackgroundRemoval env f (Some (app_config s)) (lib s))
    as [l [b|e]]; destruct O as [Hl' _];
    unfold ui_consistent, app_console_error, set_lib, set_processed, set_error, emit in *;
    simpl in *; congruence.
Qed.

(** X3: whatever handlers run, one at a time, from the initial state, the
    loading indicator [modelLoaded] of the interface equals the wrapper's
    readiness flag. *)
Theorem ui_flag_mirrors_wrapper env ops : ui_consistent (app_run env ops app_init).
Proof.
  assert (H : forall s, ui_consistent s -> ui_consistent (app_run env ops s)).
  { induction ops as [|op ops IH]; intros s Hs; simpl; [exact Hs |].
    apply IH. destruct op.
    - apply initModel_ui.
    - apply handleConfigChange_ui; exact Hs.
    - apply handleFileSelect_ui; exact Hs. }
  apply H. reflexivity.
Qed.

Lemma wstep_keeps_flag env op st :
  op <> WReset -> isModelLoaded st = true -> isModelLoaded (wstep env op st) = true.
Proof.
  intros Hop Hl. destruct op as [c | f c | | ]; simpl.
  - rewrite (loadModel_when_ready env c st Hl). exact Hl.
  - pose proof (process_when_ready_frame env f c st Hl) as O.
    destruct (processImageBackgroundRemoval env f c st) as [st' r]. apply O.
  - contradiction.
  - exact Hl.
Qed.

(** X4: once the wrapper is ready it stays ready until [resetModel]: no
    sequence of [loadModel], [processImageBackgroundRemoval] and
    [isModelReady] calls, failing or not, clears the flag. *)
Theorem wrapper_flag_stays_set env ops st :
  ~ In WReset ops -> isModelLoaded st = true -> isModelLoaded (wrun env ops st) = true.
Proof.
  revert st. induction ops as [|op ops IH]; intros st Hin Hl; simpl; [exact Hl |].
  apply IH.
  - intros H. apply Hin. right. exact H.
  - apply wstep_keeps_flag; [| exact Hl]. intros ->. apply Hin. left. reflexivity.
Qed.

Lemma wrapper_flag_stays_set_witness :
  (~ In WReset [WLoad (Some gpu_config); WProcess sample_file None; WIsReady] /\
   isModelLoaded ready_st = true) /\
  isModelLoaded (wrun (inference_fails_env "oom")
    [WLoad (Some gpu_config); WProcess sample_file None; WIsReady] ready_st) = true.
Proof.
  assert (H1 : ~ In WReset [WLoad (Some gpu_config); WProcess sample_file None; WIsReady]).
  { simpl. intros [H | [H | [H | []]]]; discriminate H. }
  split; [split; [exact H1 | reflexivity] |].
  exact (wrapper_flag_stays_set (inference_fails_env "oom") _ ready_st H1 eq_refl).
Defined.

Lemma wstep_set_by_preload env op st :
  exists new, trace (wstep env op st) = trace st ++ new /\
    (isModelLoaded (wstep env op st) = true -> isModelLoaded st = false ->
     exists r a, In (EvPreload r a true) new).
Proof.
  destruct op as [c | f c | | ]; simpl.
  - destruct (isModelLoaded st) eqn:Hl.
    + rewrite (loadModel_when_ready env c st Hl). exists [].
      rewrite app_nil_r. split; [reflexivity | congruence].
    + destruct (env_preload env (trace st) (preload_config (with_default c))) as [e|] eqn:Hp.
      * rewrite (loadModel_preload_fail env c st e Hl Hp). simpl.
        eexists. split; [reflexivity | discriminate].
      * rewrite (loadModel_preload_ok env c st Hl Hp). simpl.
        eexists. split; [reflexivity |]. intros _ _. do 2 eexists. left. reflexivity.
  - destruct (isModelLoaded st) eqn:Hl.
    + pose proof (process_when_ready_frame env f c st Hl) as O.
      destruct (env_removeBackground env (trace st) f (with_default c)) as [e|b] eqn:Hr.
      * rewrite (process_when_ready_fail env f c st e Hl Hr). simpl.
        eexists. split; [reflexivity | congruence].
      * rewrite (process_when_ready_ok env f c st b Hl Hr). simpl.
        eexists. split; [reflexivity | congruence].
    + destruct (env_preload env (trace st) (preload_config (with_default c))) as [e|] eqn:Hp.
      * rewrite (process_lazy_load_fail env f c st e Hl Hp). simpl.
        eexists. split; [reflexivity | discriminate].
      * rewrite (process_lazy_load_ok env f c st Hl Hp).
        set (st1 := mkSt true _).
        destruct (env_removeBackground env (trace st1) f (with_default (Some (with_default c))))
          as [e|b] eqn:Hr.
        -- rewrite (process_when_ready_fail env f _ st1 e eq_refl Hr). simpl.
           rewrite <- app_assoc. eexists. split; [reflexivity |].
           intros _ _. do 2 eexists. left. reflexivity.
        -- rewrite (process_when_ready_ok env f _ st1 b eq_refl Hr). simpl.
           rewrite <- app_assoc. eexists. split; [reflexivity |].
           intros _ _. do 2 eexists. left. reflexivity.
  - exists []. rewrite app_nil_r. split; [reflexivity | discriminate].
  - exists []. rewrite app_nil_r. split; [reflexivity | congruence].
Qed.

(** X5: over any sequence of wrapper calls the trace only grows, and if
    the flag was false before and is true after, the new part of the trace
    contains a successful [preload] call: nothing else makes the wrapper
    ready. *)
Theorem wrapper_flag_set_only_by_preload env ops st :
  exists new, trace (wrun env ops st) = trace st ++ new /\
    (isModelLoaded (wrun env ops st) = true -> isModelLoaded st = false ->
     exists r a, In (EvPreload r a true) new).
Proof.
  revert st. induction ops as [|op ops IH]; intros st; simpl.
  - exists []. rewrite app_nil_r. split; [reflexivity | congruence].
  - destruct (wstep_set_by_preload env op st) as [new1 [Ht1 Hs1]].
    destruct (IH (wstep env op st)) as [new2 [Ht2 Hs2]].
    exists (new1 ++ new2). split; [rewrite Ht2, Ht1, app_assoc; reflexivity |].
    intros Hend Hstart.
    destruct (isModelLoaded (wstep env op st)) eqn:Hmid.
    + destruct (Hs1 eq_refl Hstart) as [r [a Hin]].
      exists r, a. apply in_or_app. left. exact Hin.
    + destruct (Hs2 Hend eq_refl) as [r [a Hin]].
      exists r, a. apply in_or_app. right. exact Hin.
Qed.

(** X6: after [resetModel], whatever the flag was, the next [loadModel]
    makes exactly one [preload] call, with the flag false and with the
    [model], [debug] and [device] of its configuration. *)
Theorem reload_after_reset env c st :
  exists ok rest,
    trace (fst (loadModel env c (fst (resetModel st)))) =
      trace st ++ EvPreload false (preload_config (with_default c)) ok :: rest /\
    count_preloads rest = 0.
Proof.
  set (st0 := fst (resetModel st)).
  assert (H0 : isModelLoaded st0 = false) by reflexivity.
  destruct (env_preload env (trace st0) (preload_config (with_default c))) as [e|] eqn:Hp.
  - rewrite (loadModel_preload_fail env c st0 e H0 Hp). simpl.
    exists false, [EvConsoleError preload_failed_label (External e)].
    split; reflexivity.
  - rewrite (loadModel_preload_ok env c st0 H0 Hp). simpl.
    exists true, []. split; reflexivity.
Qed.

(** X7: on success [processImageBackgroundRemoval] returns exactly the blob
    of its single [removeBackground] call, which receives the file and the
    whole configuration (defaults resolved); with the wrapper not ready a
    successful [preload] comes first, and the wrapper is ready afterwards. *)
Theorem process_returns_library_blob env f c st b :
  (isModelLoaded st = true ->
   env_removeBackground env (trace st) f (with_default c) = inr b ->
   processImageBackgroundRemoval env f c st =
     (mkSt true (trace st ++ [EvRemoveBackground true f (with_default c)]), Ok b)) /\
  (isModelLoaded st = false ->
   env_preload env (trace st) (preload_config (with_default c)) = None ->
   env_removeBackground env
     (trace st ++ [EvPreload false (preload_config (with_default c)) true])
     f (with_default c) = inr b ->
   processImageBackgroundRemoval env f c st =
     (mkSt true (trace st ++ [EvPreload false (preload_config (with_default c)) true;
                              EvRemoveBackground true f (with_default c)]), Ok b)).
Proof.
  split.
  - intros Hl Hr. exact (process_when_ready_ok env f c st b Hl Hr).
  - intros Hl Hp Hr.
    rewrite (process_lazy_load_ok env f c st Hl Hp).
    rewrite (process_when_ready_ok env f (Some (with_default c))
      (mkSt true (trace st ++ [EvPreload false (preload_config (with_default c)) true]))
      b eq_refl Hr).
    simpl. rewrite <- app_assoc. reflexivity.
Qed.

Lemma process_returns_library_blob_witness :
  (isModelLoaded init_st = false /\
   env_preload ok_env (trace init_st) (preload_config (with_default None)) = None /\
   env_removeBackground ok_env
     (trace init_st ++ [EvPreload false (preload_config (with_default None)) true])
     sample_file (with_default None) = inr "png-bytes") /\
  processImageBackgroundRemoval ok_env sample_file None init_st =
    (mkSt true (trace init_st ++ [EvPreload false (preload_config (with_default None)) true;
                                  EvRemoveBackground true sample_file (with_default None)]),
     Ok "png-bytes").
Proof.
  split; [repeat split |].
  apply (process_returns_library_blob ok_env sample_file None init_st "png-bytes");
    reflexivity.
Defined.

(** ** File names of downloads *)

Lemma no_dot_slash_chars s :
  (forall n c, String.get n s = Some c -> c <> "."%char /\ c <> "/"%char) ->
  no_dot_slash s = true.
Proof.
  induction s as [|c s IH]; intros H; simpl; [reflexivity |].
  destruct (H 0 c eq_refl) as [Hd Hs].
  apply Ascii.eqb_neq in Hd, Hs. rewrite Hd, Hs. simpl.
  apply IH. intros n c' Hn. exact (H (S n) c' Hn).
Qed.

Lemma no_dot_slash_app_dot base ext :
  no_dot_slash (base ++ String "."%char ext)%string = false.
Proof.
  induction base as [|c base IH]; simpl; [reflexivity |].
  rewrite IH. apply andb_false_r.
Qed.

Lemma ext_tail_app_dot base ext :
  ext_tail (base ++ String "."%char ext)%string = false.
Proof.
  destruct base as [|c base]; [reflexivity |].
  exact (no_dot_slash_app_dot (String c base) ext).
Qed.

Lemma strip_extension_last base ext :
  ext <> EmptyString ->
  (forall n c, String.get n ext = Some c -> c <> "."%char /\ c <> "/"%char) ->
  strip_extension (base ++ String "."%char ext)%string = base.
Proof.
  intros Hne Hch. induction base as [|c base IH].
  - simpl. destruct ext as [|c ext]; [contradiction |].
    unfold ext_tail. rewrite (no_dot_slash_chars _ Hch). reflexivity.
  - simpl. rewrite ext_tail_app_dot, andb_false_r, IH. reflexivity.
Qed.

Lemma strip_extension_no_dot s :
  (forall n, String.get n s <> Some "."%char) -> strip_extension s = s.
Proof.
  induction s as [|c s IH]; intros H; simpl; [reflexivity |].
  assert (Hc : Ascii.eqb c "."%char = false).
  { apply Ascii.eqb_neq. intros ->. exact (H 0 eq_refl). }
  rewrite Hc. simpl. rewrite IH; [reflexivity |].
  intros n. exact (H (S n)).
Qed.

(** X8: [filename.replace(/\.[^/.]+$/, '')] removes exactly the last
    extension: a name [base.ext], with [ext] non-empty and free of [.] and
    [/], becomes [base] (so [x.tar.gz] becomes [x.tar]); a name without any
    [.] is left as it is. *)
Theorem strip_extension_spec base ext :
  (ext <> EmptyString ->
   (forall n c, String.get n ext = Some c -> c <> "."%char /\ c <> "/"%char) ->
   strip_extension (base ++ String "."%char ext)%string = base) /\
  ((forall n, String.get n base <> Some "."%char) -> strip_extension base = base).
Proof.
  split; [apply strip_extension_last | apply strip_extension_no_dot].
Qed.

Lemma strip_extension_spec_witness :
  ("gz" <> EmptyString /\
   (forall n c, String.get n "gz" = Some c -> c <> "."%char /\ c <> "/"%char)) /\
  strip_extension ("x.tar" ++ String "."%char "gz")%string = "x.tar".
Proof.
  assert (H1 : "gz" <> EmptyString) by discriminate.
  assert (H2 : forall n c, String.get n "gz" = Some c -> c <> "."%char /\ c <> "/"%char).
  { intros [|[|n]] c H; simpl in H.
    - injection H as <-. split; discriminate.
    - injection H as <-. split; discriminate.
    - discriminate H. }
  split; [split; assumption |].
  exact (proj1 (strip_extension_spec "x.tar" "gz") H1 H2).
Defined.

(** X9: [downloadImage] names the file
    [<no-bg|bg-only|mask>-<base>.<png|jpg|webp>] from the output type and
    format of the current configuration, where [base] is the processed
    file's name without its last extension. *)
Theorem downloadImage_name config base ext blob :
  ext <> EmptyString ->
  (forall n c, String.get n ext = Some c -> c <> "."%char /\ c <> "/"%char) ->
  downloadImage (Some ((base ++ String "."%char ext)%string, blob)) config =
    Some (outputTypeName (type (output config)) ++ "-" ++ base ++ "." ++
          extension (format (output config)))%string.
Proof.
  intros Hne Hch. unfold downloadImage.
  rewrite (strip_extension_last base ext Hne Hch). reflexivity.
Qed.

Lemma downloadImage_name_witness :
  let mask_webp := {| debug := false; device := cpu; model := isnet;
                      output := {| format := image_webp; quality := 1 # 2;
                                   type := mask |} |} in
  ("jpeg" <> EmptyString /\
   (forall n c, String.get n "jpeg" = Some c -> c <> "."%char /\ c <> "/"%char)) /\
  downloadImage (Some (("holiday" ++ String "."%char "jpeg")%string, "")) mask_webp =
    Some "mask-holiday.webp".
Proof.
  intros mask_webp.
  assert (H1 : "jpeg" <> EmptyString) by discriminate.
  assert (H2 : forall n c, String.get n "jpeg" = Some c -> c <> "."%char /\ c <> "/"%char).
  { intros [|[|[|[|n]]]] c H; simpl in H;
      try (injection H as <-; split; discriminate); discriminate H. }
  split; [split; assumption |].
  exact (downloadImage_name mask_webp "holiday" "jpeg" "" H1 H2).
Defined.

(** ** Configuration changes from the settings panel *)

Lemma config_change_same_fields env s c :
  model c = model (app_config s) -> device c = device (app_config s) ->
  debug c = debug (app_config s) ->
  handleConfigChange env c s = set_config s c.
Proof.
  intros Hm Hdv Hdb. unfold handleConfigChange. rewrite Hm, Hdv, Hdb.
  assert (Em : Model_eqb (model (app_config s)) (model (app_config s)) = true)
    by (apply Model_eqb_eq; reflexivity).
  assert (Ed : Device_eqb (device (app_config s)) (device (app_config s)) = true)
    by (apply Device_eqb_eq; reflexivity).
  rewrite Em, Ed, Bool.eqb_reflx. reflexivity.
Qed.

Lemma config_change_reloads env s c :
  debug c <> debug (app_config s) ->
  exists ok rest,
    trace (lib (handleConfigChange env c s)) =
      trace (lib s) ++ EvPreload false (preload_config c) ok :: rest /\
    count_preloads rest = 0.
Proof.
  intros Hdb.
  assert (Hc : negb (Model_eqb (model c) (model (app_config s))) ||
               negb (Device_eqb (device c) (device (app_config s))) ||
               negb (Bool.eqb (debug c) (debug (app_config s))) = true).
  { destruct (Bool.eqb (debug c) (debug (app_config s))) eqn:E.
    - apply Bool.eqb_prop in E. contradiction.
    - simpl. rewrite ?orb_true_r. reflexivity. }
  unfold handleConfigChange. rewrite Hc.
  set (l0 := lib (set_lib (set_modelLoaded (set_config s c) false)
                (fst (resetModel (lib (set_modelLoaded (set_config s c) false)))))).
  assert (H0 : isModelLoaded l0 = false) by reflexivity.
  destruct (env_preload env (trace l0) (preload_config (with_default (Some c))))
    as [e|] eqn:Hp.
  - rewrite (loadModel_preload_fail env (Some c) l0 e H0 Hp).
    exists false. eexists. unfold_app. rewrite <- app_assoc. split; reflexivity.
  - rewrite (loadModel_preload_ok env (Some c) l0 H0 Hp).
    exists true. eexists. unfold_app. split; reflexivity.
Qed.

(** X10: changing only the output format in the panel keeps the wrapper
    and the current result as they are (the image is not processed again),
    while the download name of that result takes the new format's
    extension. *)
Theorem format_change_keeps_result env s fmt :
  let c := updateOutputConfig (app_config s)
             {| u_format := Some fmt; u_quality := None; u_type := None |} in
  let s' := handleConfigChange env c s in
  lib s' = lib s /\ processedImage s' = processedImage s /\
  downloadImage (processedImage s') (app_config s') =
    match processedImage s with
    | None => None
    | Some (filename, _) =>
        Some (outputTypeName (type (output (app_config s))) ++ "-" ++
              strip_extension filename ++ "." ++ extension fmt)%string
    end.
Proof.
  intros c s'.
  assert (Hs' : s' = set_config s c)
    by (apply config_change_same_fields; reflexivity).
  rewrite Hs'. split; [reflexivity | split; [reflexivity |]].
  unfold downloadImage. simpl. destruct (processedImage s) as [[n b]|]; reflexivity.
Qed.

(** X11: the panel's debug switch ([updateConfig({ debug: !config.debug })])
    always changes a model-selecting field, so it always resets the wrapper
    and makes exactly one new [preload] call, with the flag false and the
    new configuration's [model], [debug] and [device]. *)
Theorem debug_toggle_reloads env s :
  let c := updateConfig (app_config s) (toggle_debug (app_config s)) in
  exists ok rest,
    trace (lib (handleConfigChange env c s)) =
      trace (lib s) ++ EvPreload false (preload_config c) ok :: rest /\
    count_preloads rest = 0.
Proof.
  intros c. apply config_change_reloads.
  unfold c, updateConfig, toggle_debug. simpl.
  destruct (debug (app_config s)); discriminate.
Qed.

End Extras.
